(** * The authentication simulator of [script.py]

    A shallow embedding of the class [AuthenticationSimulator]
    (Help files for Prompt/Phase 1 implementation plan/script.py) together
    with the two platform primitives it calls, [str.encode] (UTF-8, strict)
    and [hashlib.sha256(...).hexdigest()].

    Conventions.
    - A Python [str] is a sequence of code points, here [list Z]; slicing and
      [len] count code points, not bytes.
    - Bytes are [Z] in [0, 256); 32-bit words are [Z] with the wrap-around
      written out.
    - A method is a computation over the world (the object [self] and the
      standard output) that either returns a value or raises. *)

From Stdlib Require Import ZArith List String Ascii Bool Lia.
Import ListNotations.
Local Open Scope Z_scope.

(** ** Python strings *)

Definition pystr := list Z.

(** The code points of an ASCII literal of the source. *)
Definition str_of (s : string) : pystr :=
  map (fun a => Z.of_N (N_of_ascii a)) (list_ascii_of_string s).

Definition pystr_eqb (s t : pystr) : bool :=
  if list_eq_dec Z.eq_dec s t then true else false.

(** ** Exceptions and the result of a call *)

Inductive exn : Type :=
| UnicodeEncodeError
| KeyError (key : string)
| TypeError
| AssertionError (msg : string).

Inductive res (A : Type) : Type :=
| Ok (a : A)
| Raise (e : exn).
Arguments Ok {A} a.
Arguments Raise {A} e.

(** ** [str.encode()]: UTF-8 with the strict error handler *)

Module Utf8.

Definition is_surrogate (c : Z) : bool := (0xD800 <=? c) && (c <=? 0xDFFF).

(** The code points [str.encode()] accepts: the Unicode scalar values, that
    is every code point U+0000..U+10FFFF but the surrogates U+D800..U+DFFF.
    No [str] holds a value outside U+0000..U+10FFFF; [encode_char] refuses
    those as well. *)
Definition is_scalar (c : Z) : bool :=
  (0 <=? c) && (c <? 0x110000) && negb (is_surrogate c).

Definition cont (c shift : Z) : Z :=
  Z.lor 0x80 (Z.land (Z.shiftr c shift) 0x3F).

Definition encode_char (c : Z) : res (list Z) :=
  if negb (is_scalar c) then Raise UnicodeEncodeError
  else if c <? 0x80 then Ok [c]
  else if c <? 0x800 then Ok [Z.lor 0xC0 (Z.shiftr c 6); cont c 0]
  else if c <? 0x10000 then
    Ok [Z.lor 0xE0 (Z.shiftr c 12); cont c 6; cont c 0]
  else Ok [Z.lor 0xF0 (Z.shiftr c 18); cont c 12; cont c 6; cont c 0].

Fixpoint encode (s : pystr) : res (list Z) :=
  match s with
  | [] => Ok []
  | c :: s' =>
      match encode_char c with
      | Raise e => Raise e
      | Ok bs =>
          match encode s' with
          | Raise e => Raise e
          | Ok bs' => Ok (bs ++ bs')
          end
      end
  end.

(** A string is encodable when it holds no lone surrogate. *)
Definition encodable (s : pystr) : bool := forallb is_scalar s.

End Utf8.

(** ** [hashlib.sha256]: SHA-256 as in FIPS 180-4 *)

Module Sha256.

Definition wrap32 (x : Z) : Z := x mod 2 ^ 32.
Definition add32 (x y : Z) : Z := wrap32 (x + y).

Definition rotr (n x : Z) : Z :=
  Z.lor (Z.shiftr x n) (wrap32 (Z.shiftl x (32 - n))).

Definition Ch (x y z : Z) : Z :=
  Z.lxor (Z.land x y) (Z.land (Z.lnot x) z).
Definition Maj (x y z : Z) : Z :=
  Z.lxor (Z.lxor (Z.land x y) (Z.land x z)) (Z.land y z).

Definition bsig0 (x : Z) : Z := Z.lxor (Z.lxor (rotr 2 x) (rotr 13 x)) (rotr 22 x).
Definition bsig1 (x : Z) : Z := Z.lxor (Z.lxor (rotr 6 x) (rotr 11 x)) (rotr 25 x).
Definition ssig0 (x : Z) : Z := Z.lxor (Z.lxor (rotr 7 x) (rotr 18 x)) (Z.shiftr x 3).
Definition ssig1 (x : Z) : Z := Z.lxor (Z.lxor (rotr 17 x) (rotr 19 x)) (Z.shiftr x 10).

Definition K : list Z :=
  [ 0x428A2F98; 0x71374491; 0xB5C0FBCF; 0xE9B5DBA5;
    0x3956C25B; 0x59F111F1; 0x923F82A4; 0xAB1C5ED5;
    0xD807AA98; 0x12835B01; 0x243185BE; 0x550C7DC3;
    0x72BE5D74; 0x80DEB1FE; 0x9BDC06A7; 0xC19BF174;
    0xE49B69C1; 0xEFBE4786; 0x0FC19DC6; 0x240CA1CC;
    0x2DE92C6F; 0x4A7484AA; 0x5CB0A9DC; 0x76F988DA;
    0x983E5152; 0xA831C66D; 0xB00327C8; 0xBF597FC7;
    0xC6E00BF3; 0xD5A79147; 0x06CA6351; 0x14292967;
    0x27B70A85; 0x2E1B2138; 0x4D2C6DFC; 0x53380D13;
    0x650A7354; 0x766A0ABB; 0x81C2C92E; 0x92722C85;
    0xA2BFE8A1; 0xA81A664B; 0xC24B8B70; 0xC76C51A3;
    0xD192E819; 0xD6990624; 0xF40E3585; 0x106AA070;
    0x19A4C116; 0x1E376C08; 0x2748774C; 0x34B0BCB5;
    0x391C0CB3; 0x4ED8AA4A; 0x5B9CCA4F; 0x682E6FF3;
    0x748F82EE; 0x78A5636F; 0x84C87814; 0x8CC70208;
    0x90BEFFFA; 0xA4506CEB; 0xBEF9A3F7; 0xC67178F2 ].

(** The eight working variables, also the shape of a hash value. *)
Record regs : Type := Regs {
  ra : Z; rb : Z; rc : Z; rd : Z; re : Z; rf : Z; rg : Z; rh : Z
}.

Definition H0 : regs :=
  Regs 0x6A09E667 0xBB67AE85 0x3C6EF372 0xA54FF53A
       0x510E527F 0x9B05688C 0x1F83D9AB 0x5BE0CD19.

(** One of the 64 rounds, on round constant [k] and schedule word [w]. *)
Definition round (r : regs) (k w : Z) : regs :=
  let t1 := add32 (add32 (add32 (add32 (rh r) (bsig1 (re r)))
                                (Ch (re r) (rf r) (rg r))) k) w in
  let t2 := add32 (bsig0 (ra r)) (Maj (ra r) (rb r) (rc r)) in
  Regs (add32 t1 t2) (ra r) (rb r) (rc r) (add32 (rd r) t1) (re r) (rf r) (rg r).

(** The rounds over a sliding window [W_t .. W_(t+15)] of the message
    schedule: W_(t+16) = ssig1 W_(t+14) + W_(t+9) + ssig0 W_(t+1) + W_t. *)
Fixpoint rounds (ks : list Z) (win : list Z) (r : regs) : regs :=
  match ks with
  | [] => r
  | k :: ks' =>
      match win with
      | [] => r
      | w :: rest =>
          let w16 := add32 (add32 (add32 (ssig1 (nth 13 rest 0)) (nth 8 rest 0))
                                  (ssig0 (nth 0 rest 0))) w in
          rounds ks' (rest ++ [w16]) (round r k w)
      end
  end.

Definition compress (h : regs) (block : list Z) : regs :=
  let r := rounds K block h in
  Regs (add32 (ra h) (ra r)) (add32 (rb h) (rb r))
       (add32 (rc h) (rc r)) (add32 (rd h) (rd r))
       (add32 (re h) (re r)) (add32 (rf h) (rf r))
       (add32 (rg h) (rg r)) (add32 (rh h) (rh r)).

Fixpoint blocks (n : nat) (h : regs) (ws : list Z) : regs :=
  match n with
  | O => h
  | S n' => blocks n' (compress h (firstn 16 ws)) (skipn 16 ws)
  end.

Definition byte_at (x shift : Z) : Z := Z.land (Z.shiftr x shift) 0xFF.

Definition be32_bytes (w : Z) : list Z :=
  [byte_at w 24; byte_at w 16; byte_at w 8; byte_at w 0].

Definition be64_bytes (n : Z) : list Z :=
  map (byte_at n) [56; 48; 40; 32; 24; 16; 8; 0].

Fixpoint words_of_bytes (bs : list Z) : list Z :=
  match bs with
  | b0 :: b1 :: b2 :: b3 :: rest =>
      Z.lor (Z.lor (Z.lor (Z.shiftl b0 24) (Z.shiftl b1 16)) (Z.shiftl b2 8)) b3
      :: words_of_bytes rest
  | _ => []
  end.

(** Padding: the bit 1, zeros up to 56 modulo 64, the bit length on 64 bits. *)
Definition pad (msg : list Z) : list Z :=
  let len := Z.of_nat (List.length msg) in
  msg ++ 0x80 :: repeat 0 (Z.to_nat ((55 - len) mod 64)) ++ be64_bytes (8 * len).

Definition digest (msg : list Z) : list Z :=
  let ws := words_of_bytes (pad msg) in
  let h := blocks (Nat.div (List.length ws) 16) H0 ws in
  flat_map be32_bytes
    [ra h; rb h; rc h; rd h; re h; rf h; rg h; rh h].

(** [hexdigest]: two lowercase hexadecimal digits per byte. *)
Definition hexdigit (d : Z) : Z := if d <? 10 then 48 + d else 87 + d.

Definition hex (bs : list Z) : pystr :=
  flat_map (fun b => [hexdigit (b / 16); hexdigit (b mod 16)]) bs.

Definition hexdigest (msg : list Z) : pystr := hex (digest msg).

End Sha256.

(** The characters of a lowercase hexadecimal digest: 0-9 and a-f. *)
Definition is_lower_hex (c : Z) : bool :=
  ((48 <=? c) && (c <=? 57)) || ((97 <=? c) && (c <=? 102)).

Definition is_byte (b : Z) : Prop := 0 <= b < 256.

(** ** Python values and dictionaries *)

Inductive value : Type :=
| VBool (b : bool)
| VInt (n : Z)
| VStr (s : pystr).

(** A dictionary literal, in insertion order. *)
Definition pydict := list (string * value).

(** [d[k]]: the value stored under [k], or KeyError. *)
Fixpoint getitem (d : pydict) (k : string) : res value :=
  match d with
  | [] => Raise (KeyError k)
  | (k', v) :: d' => if String.eqb k' k then Ok v else getitem d' k
  end.

(** Truth value testing, as [not x], [if x] and [assert x] do it. *)
Definition truthy (v : value) : bool :=
  match v with
  | VBool b => b
  | VInt n => negb (n =? 0)
  | VStr [] => false
  | VStr (_ :: _) => true
  end.

(** [x == y] on the values used here. *)
Definition value_eqb (x y : value) : bool :=
  match x, y with
  | VBool a, VBool b => Bool.eqb a b
  | VInt a, VInt b => a =? b
  | VBool a, VInt b => (if a then 1 else 0) =? b
  | VInt a, VBool b => a =? (if b then 1 else 0)
  | VStr s, VStr t => pystr_eqb s t
  | _, _ => false
  end.

(** [len(x)]: defined on strings, TypeError on booleans and integers. *)
Definition len (v : value) : res Z :=
  match v with
  | VStr s => Ok (Z.of_nat (List.length s))
  | _ => Raise TypeError
  end.

(** ** The world: the simulator object and the standard output *)

Record Simulator : Type := mkSimulator {
  api_key : pystr;
  api_secret : pystr;
  redirect_uri : pystr;
  token_endpoint : pystr;
  auth_portal : pystr
}.

Record World : Type := mkWorld {
  self : Simulator;
  stdout : list pystr
}.

(** [__init__] *)
Definition init : Simulator :=
  {| api_key := str_of "test_api_key";
     api_secret := str_of "test_api_secret";
     redirect_uri := str_of "http://localhost:5000/api/auth/callback";
     token_endpoint := str_of "https://authapi.flattrade.in/trade/apitoken";
     auth_portal := str_of "https://auth.flattrade.in/" |}.

(** ** Computations: world passing with exceptions *)

Definition M (A : Type) : Type := World -> res A * World.

Definition ret {A} (a : A) : M A := fun w => (Ok a, w).

Definition raise {A} (e : exn) : M A := fun w => (Raise e, w).

Definition bind {A B} (c : M A) (k : A -> M B) : M B :=
  fun w =>
    match c w with
    | (Ok a, w') => k a w'
    | (Raise e, w') => (Raise e, w')
    end.

Notation "x <- c ;; k" := (bind c (fun x => k))
  (at level 61, c at next level, right associativity).
Notation "c ;; k" := (bind c (fun _ => k))
  (at level 61, right associativity).

(** The outcome of a pure call that may raise. *)
Definition lift {A} (r : res A) : M A := fun w => (r, w).

(** [self.f] *)
Definition attr (f : Simulator -> pystr) : M pystr := fun w => (Ok (f (self w)), w).

(** [print(line)] *)
Definition print (line : pystr) : M unit :=
  fun w => (Ok tt, {| self := self w; stdout := stdout w ++ [line] |}).

(** [assert cond, msg] *)
Definition assert (cond : bool) (msg : string) : M unit :=
  if cond then ret tt else raise (AssertionError msg).

(** ** The methods of [AuthenticationSimulator] *)

(** The two dictionaries that report an error; the spec calls them
    ConfigError and ExchangeError. *)
Definition ConfigError : pydict := [("error"%string, VStr (str_of "Missing configuration"))].
Definition ExchangeError : pydict := [("error"%string, VStr (str_of "No request code provided"))].

Definition generate_login_url : M pydict :=
  key <- attr api_key ;;
  uri <- attr redirect_uri ;;
  if negb (truthy (VStr key)) || negb (truthy (VStr uri)) then
    ret ConfigError
  else
    portal <- attr auth_portal ;;
    let url := portal ++ str_of "?app_key=" ++ key
                      ++ str_of "&redirect_uri=" ++ uri in
    ret [("success"%string, VBool true); ("loginUrl"%string, VStr url)].

Definition simulate_sha256_hashing (request_code : pystr) : M pydict :=
  key <- attr api_key ;;
  secret <- attr api_secret ;;
  let hash_input := (key ++ request_code) ++ secret in
  bytes <- lift (Utf8.encode hash_input) ;;
  let hashed_secret := Sha256.hexdigest bytes in
  ret [("api_key"%string, VStr key);
       ("api_secret"%string, VStr hashed_secret);
       ("request_code"%string, VStr request_code)].

Definition validate_token_exchange (request_code : pystr) : M pydict :=
  if negb (truthy (VStr request_code)) then
    ret ExchangeError
  else
    token_data <- simulate_sha256_hashing request_code ;;
    ret [("success"%string, VBool true);
         ("token"%string, VStr (str_of "mock_token_" ++ firstn 8 request_code));
         ("expires_in"%string, VInt 86400);
         ("status"%string, VStr (str_of "Ok"))].

Definition test_authentication_flow : M bool :=
  print (0x1F527 :: str_of " Testing Authentication Flow...") ;;
  login_result <- generate_login_url ;;
  ok1 <- lift (getitem login_result "success") ;;
  assert (truthy ok1) "Login URL generation failed" ;;
  print (0x2705 :: str_of " Login URL generation: PASSED") ;;
  let mock_request_code := str_of "test_request_code_123" in
  token_result <- validate_token_exchange mock_request_code ;;
  ok2 <- lift (getitem token_result "success") ;;
  assert (truthy ok2) "Token exchange failed" ;;
  print (0x2705 :: str_of " Token exchange: PASSED") ;;
  hash_result <- simulate_sha256_hashing mock_request_code ;;
  echoed <- lift (getitem hash_result "api_key") ;;
  key <- attr api_key ;;
  assert (value_eqb echoed (VStr key)) "API key validation failed" ;;
  hashed <- lift (getitem hash_result "api_secret") ;;
  n <- lift (len hashed) ;;
  assert (n =? 64) "SHA-256 hash length invalid" ;;
  print (0x2705 :: str_of " SHA-256 hashing: PASSED") ;;
  print (0x1F389 :: str_of " All authentication tests PASSED!") ;;
  ret true.

(** The module-level run: a fresh simulator and an empty output. *)
Definition auth_simulator : World := {| self := init; stdout := [] |}.

(** ** Views used by the statements *)

(** [t] occurs in [s] as a literal substring. *)
Definition substring (t s : pystr) : Prop :=
  exists pre post, s = pre ++ t ++ post.

(** The hashing operation seen as the spec's [computeExchangeSecret]: the
    digest stored in the payload of a simulator holding the two credentials. *)
Definition with_credentials (apiKey apiSecret : pystr) : World :=
  {| self := {| api_key := apiKey;
                api_secret := apiSecret;
                redirect_uri := redirect_uri init;
                token_endpoint := token_endpoint init;
                auth_portal := auth_portal init |};
     stdout := [] |}.

Definition computeExchangeSecret (apiKey requestCode apiSecret : pystr) : res pystr :=
  match fst (simulate_sha256_hashing requestCode (with_credentials apiKey apiSecret)) with
  | Raise e => Raise e
  | Ok payload =>
      match getitem payload "api_secret" with
      | Ok (VStr s) => Ok s
      | Ok _ => Raise TypeError
      | Raise e => Raise e
      end
  end.

(** Two simulators hold the same configuration. *)
Definition same_configuration (a b : Simulator) : Prop :=
  api_key a = api_key b /\ api_secret a = api_secret b /\
  redirect_uri a = redirect_uri b /\ token_endpoint a = token_endpoint b /\
  auth_portal a = auth_portal b.

(** The dictionary of a successful exchange. *)
Definition token_response (request_code : pystr) : pydict :=
  [("success"%string, VBool true);
   ("token"%string, VStr (str_of "mock_token_" ++ firstn 8 request_code));
   ("expires_in"%string, VInt 86400);
   ("status"%string, VStr (str_of "Ok"))].

(** The request code and the lines of [test_authentication_flow]. *)
Definition mock_request_code : pystr := str_of "test_request_code_123".

Definition line_testing : pystr := 0x1F527 :: str_of " Testing Authentication Flow...".
Definition line_login_passed : pystr := 0x2705 :: str_of " Login URL generation: PASSED".
Definition line_token_passed : pystr := 0x2705 :: str_of " Token exchange: PASSED".
Definition line_hash_passed : pystr := 0x2705 :: str_of " SHA-256 hashing: PASSED".
Definition line_all_passed : pystr := 0x1F389 :: str_of " All authentication tests PASSED!".

(** The world after [lines] were printed. *)
Definition printed (w : World) (lines : list pystr) : World :=
  {| self := self w; stdout := stdout w ++ lines |}.

(** The login URL of a key and a redirect URI under a portal. *)
Definition login_url (portal key uri : pystr) : pystr :=
  portal ++ str_of "?app_key=" ++ key ++ str_of "&redirect_uri=" ++ uri.

(** One step of the flow: run the binds, lookups and assertions that are
    decided, leaving the calls of the methods folded. *)
Ltac flow_step :=
  cbn [bind lift attr getitem String.eqb Ascii.eqb Bool.eqb truthy assert ret
       print self stdout value_eqb len Z.of_nat Pos.of_succ_nat Pos.succ
       Z.eqb Pos.eqb].

(** ** Checks of the two primitives against known values *)

Example sha_empty :
  Sha256.hexdigest [] =
  str_of "e3b0c44298fc1c149afbf4c8996fb92427ae41e4649b934ca495991b7852b855".
Proof. vm_compute. reflexivity. Qed.

Example sha_abc :
  Sha256.hexdigest (str_of "abc") =
  str_of "ba7816bf8f01cfea414140de5dae2223b00361a396177a9cb410ff61f20015ad".
Proof. vm_compute. reflexivity. Qed.

Example sha_two_blocks :
  Sha256.hexdigest (str_of "abcdbcdecdefdefgefghfghighijhijkijkljklmklmnlmnomnopnopq") =
  str_of "248d6a61d20638b8e5c026930c3e6039a33ce45964ff2167f6ecedd419db06c1".
Proof. vm_compute. reflexivity. Qed.

Example utf8_widths :
  Utf8.encode [0x41; 0xE9; 0x2705; 0x1F527] =
  Ok [0x41; 0xC3; 0xA9; 0xE2; 0x9C; 0x85; 0xF0; 0x9F; 0x94; 0xA7].
Proof. reflexivity. Qed.

Example utf8_surrogate : Utf8.encode [0xD800] = Raise UnicodeEncodeError.
Proof. reflexivity. Qed.

Example sha_of_utf8 :
  computeExchangeSecret (str_of "test_api_key") [0xE9; 0x1F527] (str_of "test_api_secret") =
  Ok (str_of "0122ff5258519231288ff07b1dc882da268aa2cb756fa0d7b08a61ca7c72050f").
Proof. vm_compute. reflexivity. Qed.

(** * Properties *)

(** ** UTF-8 encoding: raises exactly on strings that are not encodable *)

Section Utf8Facts.
Import Utf8.

Lemma encode_char_scalar c :
  is_scalar c = true -> exists bs, encode_char c = Ok bs.
Proof.
  intros Hc. unfold encode_char. rewrite Hc. cbn [negb].
  destruct (c <? 0x80); [eauto|].
  destruct (c <? 0x800); [eauto|].
  destruct (c <? 0x10000); eauto.
Qed.

Lemma encode_char_not_scalar c :
  is_scalar c = false -> encode_char c = Raise UnicodeEncodeError.
Proof. intros Hc. unfold encode_char. now rewrite Hc. Qed.

Lemma encode_encodable s :
  encodable s = true -> exists bs, encode s = Ok bs.
Proof.
  induction s as [|c s IH]; cbn [encodable forallb encode]; intros H.
  - now exists [].
  - apply andb_true_iff in H as [Hc Hs].
    destruct (encode_char_scalar c Hc) as [bs ->].
    destruct (IH Hs) as [bs' ->]. eauto.
Qed.

Lemma encode_not_encodable s :
  encodable s = false -> encode s = Raise UnicodeEncodeError.
Proof.
  induction s as [|c s IH]; cbn [encodable forallb encode]; intros H.
  - discriminate.
  - destruct (is_scalar c) eqn:Hc.
    + destruct (encode_char_scalar c Hc) as [bs ->].
      cbn [andb] in H. now rewrite (IH H).
    + now rewrite (encode_char_not_scalar c Hc).
Qed.

Lemma encode_raises_only_unicode s e :
  encode s = Raise e -> e = UnicodeEncodeError /\ encodable s = false.
Proof.
  intros H. destruct (encodable s) eqn:Hs.
  - destruct (encode_encodable s Hs) as [bs Hbs]. congruence.
  - rewrite (encode_not_encodable s Hs) in H. now inversion H.
Qed.

Lemma encode_ok_encodable s bs : encode s = Ok bs -> encodable s = true.
Proof.
  intros H. destruct (encodable s) eqn:Hs; [reflexivity|].
  rewrite (encode_not_encodable s Hs) in H. discriminate.
Qed.

End Utf8Facts.

(** ** SHA-256: the hexadecimal digest has 64 characters among 0-9, a-f *)

Section Sha256Facts.
Import Sha256.

Lemma byte_at_is_byte x shift : is_byte (byte_at x shift).
Proof.
  unfold byte_at, is_byte. change 0xFF with (Z.ones 8).
  rewrite Z.land_ones by lia. apply Z.mod_pos_bound. reflexivity.
Qed.

Lemma digest_length msg : List.length (digest msg) = 32%nat.
Proof. reflexivity. Qed.

Lemma digest_bytes msg : Forall is_byte (digest msg).
Proof.
  unfold digest. cbn [flat_map be32_bytes app].
  repeat (constructor; [apply byte_at_is_byte|]). constructor.
Qed.

Lemma hex_length bs : List.length (hex bs) = (2 * List.length bs)%nat.
Proof.
  induction bs as [|b bs IH]; [reflexivity|].
  cbn [hex flat_map app List.length] in *. fold (hex bs). lia.
Qed.

Lemma hexdigit_lower d : 0 <= d < 16 -> is_lower_hex (hexdigit d) = true.
Proof.
  intros Hd. unfold hexdigit, is_lower_hex.
  destruct (Z.ltb_spec d 10).
  - apply orb_true_iff. left. apply andb_true_iff. split; lia.
  - apply orb_true_iff. right. apply andb_true_iff. split; lia.
Qed.

Lemma hex_lower bs : Forall is_byte bs -> forallb is_lower_hex (hex bs) = true.
Proof.
  induction 1 as [|b bs Hb _ IH]; [reflexivity|].
  cbn [hex flat_map app forallb]. fold (hex bs). rewrite IH.
  unfold is_byte in Hb.
  rewrite !hexdigit_lower; [reflexivity| |].
  - apply Z.mod_pos_bound. lia.
  - split; [apply Z.div_pos; lia | apply Z.div_lt_upper_bound; lia].
Qed.

Lemma hexdigest_length msg : List.length (hexdigest msg) = 64%nat.
Proof. unfold hexdigest. now rewrite hex_length, digest_length. Qed.

Lemma hexdigest_lower msg : forallb is_lower_hex (hexdigest msg) = true.
Proof. apply hex_lower, digest_bytes. Qed.

End Sha256Facts.

(** ** The equations of the three methods *)

Lemma generate_login_url_eq w :
  generate_login_url w =
  (Ok (if negb (truthy (VStr (api_key (self w))))
          || negb (truthy (VStr (redirect_uri (self w))))
       then ConfigError
       else [("success"%string, VBool true);
             ("loginUrl"%string,
              VStr (auth_portal (self w) ++ str_of "?app_key=" ++ api_key (self w)
                    ++ str_of "&redirect_uri=" ++ redirect_uri (self w)))]),
   w).
Proof.
  unfold generate_login_url, bind, attr, ret.
  destruct (negb _ || negb _); reflexivity.
Qed.

Lemma simulate_sha256_hashing_eq rc w :
  simulate_sha256_hashing rc w =
  (match Utf8.encode ((api_key (self w) ++ rc) ++ api_secret (self w)) with
   | Ok bytes =>
       Ok [("api_key"%string, VStr (api_key (self w)));
           ("api_secret"%string, VStr (Sha256.hexdigest bytes));
           ("request_code"%string, VStr rc)]
   | Raise e => Raise e
   end, w).
Proof.
  unfold simulate_sha256_hashing, bind, attr, lift, ret.
  destruct (Utf8.encode _); reflexivity.
Qed.

Lemma validate_token_exchange_eq rc w :
  validate_token_exchange rc w =
  (match rc with
   | [] => Ok ExchangeError
   | _ :: _ =>
       match Utf8.encode ((api_key (self w) ++ rc) ++ api_secret (self w)) with
       | Ok _ =>
           Ok [("success"%string, VBool true);
               ("token"%string, VStr (str_of "mock_token_" ++ firstn 8 rc));
               ("expires_in"%string, VInt 86400);
               ("status"%string, VStr (str_of "Ok"))]
       | Raise e => Raise e
       end
   end, w).
Proof.
  unfold validate_token_exchange. destruct rc as [|c rc]; [reflexivity|].
  cbn [truthy negb]. unfold bind. rewrite simulate_sha256_hashing_eq.
  destruct (Utf8.encode _); reflexivity.
Qed.

Lemma truthy_str s : truthy (VStr s) = false <-> s = [].
Proof. destruct s; cbn; split; congruence. Qed.

Lemma missing_configuration w :
  negb (truthy (VStr (api_key (self w)))) || negb (truthy (VStr (redirect_uri (self w)))) = true
  <-> api_key (self w) = [] \/ redirect_uri (self w) = [].
Proof.
  rewrite orb_true_iff, !negb_true_iff, !truthy_str. reflexivity.
Qed.

(** ** The login URL *)

(** C2. [generate_login_url] returns the ConfigError dictionary exactly when
    the API key or the redirect URI is empty.  When both are non-empty it
    returns the success dictionary whose [loginUrl] is the portal base followed
    by [?app_key=], the key, [&redirect_uri=] and the URI, all verbatim, so
    that key and URI both occur in it as literal substrings. *)
Theorem generate_login_url_spec (w : World) :
  let key := api_key (self w) in
  let uri := redirect_uri (self w) in
  let url := auth_portal (self w) ++ str_of "?app_key=" ++ key
               ++ str_of "&redirect_uri=" ++ uri in
  (generate_login_url w = (Ok ConfigError, w) <-> key = [] \/ uri = []) /\
  (key <> [] -> uri <> [] ->
     generate_login_url w =
       (Ok [("success"%string, VBool true); ("loginUrl"%string, VStr url)], w) /\
     substring key url /\ substring uri url).
Proof.
  intros key uri url. rewrite generate_login_url_eq.
  pose proof (missing_configuration w) as Hm. fold key uri in Hm.
  fold key uri url. split.
  - destruct (negb _ || negb _).
    + split; [intros _; now apply Hm | reflexivity].
    + split; [discriminate|].
      intros H. apply Hm in H. discriminate.
  - intros Hk Hu.
    destruct (negb _ || negb _).
    + destruct Hm as [Hm _]. destruct (Hm eq_refl); contradiction.
    + split; [reflexivity|]. split.
      * exists (auth_portal (self w) ++ str_of "?app_key="), (str_of "&redirect_uri=" ++ uri).
        subst url. now rewrite <- app_assoc.
      * exists (auth_portal (self w) ++ str_of "?app_key=" ++ key ++ str_of "&redirect_uri="), [].
        subst url. now rewrite app_nil_r, <- !app_assoc.
Qed.

Lemma generate_login_url_spec_witness :
  api_key (self auth_simulator) <> [] /\
  redirect_uri (self auth_simulator) <> [] /\
  generate_login_url auth_simulator =
    (Ok [("success"%string, VBool true);
         ("loginUrl"%string,
          VStr (str_of "https://auth.flattrade.in/?app_key=test_api_key&redirect_uri=http://localhost:5000/api/auth/callback"))],
     auth_simulator).
Proof.
  split; [discriminate|]. split; [discriminate|].
  apply (proj2 (generate_login_url_spec auth_simulator)); discriminate.
Defined.

(** ** The smoke test *)

(** C9. On the configuration set by [__init__], [test_authentication_flow]
    passes its four assertions and returns [True], after printing its five
    lines; the simulator is left as it was. *)
Theorem test_authentication_flow_passes :
  test_authentication_flow auth_simulator =
  (Ok true,
   {| self := init;
      stdout :=
        [0x1F527 :: str_of " Testing Authentication Flow...";
         0x2705 :: str_of " Login URL generation: PASSED";
         0x2705 :: str_of " Token exchange: PASSED";
         0x2705 :: str_of " SHA-256 hashing: PASSED";
         0x1F389 :: str_of " All authentication tests PASSED!"] |}) /\
  (exists login_result,
      fst (generate_login_url auth_simulator) = Ok login_result /\
      getitem login_result "success" = Ok (VBool true)) /\
  (exists token_result,
      fst (validate_token_exchange (str_of "test_request_code_123") auth_simulator)
        = Ok token_result /\
      getitem token_result "success" = Ok (VBool true)) /\
  (exists hash_result hashed,
      fst (simulate_sha256_hashing (str_of "test_request_code_123") auth_simulator)
        = Ok hash_result /\
      getitem hash_result "api_key" = Ok (VStr (api_key init)) /\
      getitem hash_result "api_secret" = Ok (VStr hashed) /\
      List.length hashed = 64%nat).
Proof.
  split; [vm_compute; reflexivity|].
  split; [eexists; split; vm_compute; reflexivity|].
  split; [eexists; split; vm_compute; reflexivity|].
  do 2 eexists. repeat split; vm_compute; reflexivity.
Qed.

(** ** Purity *)

(** C7. Each of the three operations hands the world back as it received it
    (the five configuration fields, and the output, are untouched, also when
    the call raises), and two worlds that agree on the five fields give the
    same outcome for the same argument. *)
Theorem operations_are_pure (w1 : World) (request_code : pystr) :
  (snd (generate_login_url w1) = w1 /\
   snd (simulate_sha256_hashing request_code w1) = w1 /\
   snd (validate_token_exchange request_code w1) = w1) /\
  (forall w2 : World,
     same_configuration (self w1) (self w2) ->
     fst (generate_login_url w1) = fst (generate_login_url w2) /\
     fst (simulate_sha256_hashing request_code w1)
       = fst (simulate_sha256_hashing request_code w2) /\
     fst (validate_token_exchange request_code w1)
       = fst (validate_token_exchange request_code w2)).
Proof.
  split.
  - rewrite generate_login_url_eq, simulate_sha256_hashing_eq,
      validate_token_exchange_eq.
    repeat split; reflexivity.
  - intros w2 (Hk & Hs & Hr & _ & Hp).
    rewrite !generate_login_url_eq, !simulate_sha256_hashing_eq,
      !validate_token_exchange_eq.
    cbn [fst]. rewrite Hk, Hs, Hr, Hp.
    repeat split; reflexivity.
Qed.

Lemma operations_are_pure_witness :
  let w1 := auth_simulator in
  let w2 := {| self := init; stdout := [str_of "earlier output"] |} in
  same_configuration (self w1) (self w2) /\
  snd (validate_token_exchange (str_of "abc123") w1) = w1 /\
  fst (validate_token_exchange (str_of "abc123") w1)
    = fst (validate_token_exchange (str_of "abc123") w2).
Proof.
  intros w1 w2.
  assert (Hc : same_configuration (self w1) (self w2))
    by (repeat split; reflexivity).
  split; [exact Hc|].
  destruct (operations_are_pure w1 (str_of "abc123")) as [(_ & _ & Hf) Hsame].
  destruct (Hsame w2 Hc) as (_ & _ & Hr).
  split; assumption.
Defined.

(** ** The hashing operation *)

Lemma encodable_assoc (a b c : pystr) :
  Utf8.encodable ((a ++ b) ++ c) = Utf8.encodable (a ++ b ++ c).
Proof. now rewrite <- app_assoc. Qed.

Lemma encodable_app (a b : pystr) :
  Utf8.encodable (a ++ b) = Utf8.encodable a && Utf8.encodable b.
Proof. apply forallb_app. Qed.

Lemma hash_input_unencodable (key code secret : pystr) :
  Utf8.encodable key = false \/ Utf8.encodable secret = false ->
  Utf8.encodable ((key ++ code) ++ secret) = false.
Proof.
  rewrite !encodable_app. intros [H | H]; rewrite H.
  - reflexivity.
  - apply andb_false_r.
Qed.

Lemma computeExchangeSecret_eq (apiKey requestCode apiSecret : pystr) :
  computeExchangeSecret apiKey requestCode apiSecret =
  match Utf8.encode ((apiKey ++ requestCode) ++ apiSecret) with
  | Ok bytes => Ok (Sha256.hexdigest bytes)
  | Raise e => Raise e
  end.
Proof.
  unfold computeExchangeSecret. rewrite simulate_sha256_hashing_eq.
  cbn [fst with_credentials self api_key api_secret].
  destruct (Utf8.encode _); reflexivity.
Qed.

(** C5, as stated, fails: two runs on the same inputs agree, but on an API
    secret holding a lone surrogate what they agree on is the raised
    UnicodeEncodeError, not a 64-character digest. *)
Lemma computeExchangeSecret_runs_agree_without_digest :
  let run1 := computeExchangeSecret (str_of "test_api_key")
                (str_of "test_request_code_123") [0xDFFF] in
  let run2 := computeExchangeSecret (str_of "test_api_key")
                (str_of "test_request_code_123") [0xDFFF] in
  run1 = run2 /\
  run1 = Raise UnicodeEncodeError /\
  ~ (exists digest,
       run1 = Ok digest /\ run2 = Ok digest /\
       List.length digest = 64%nat /\ forallb is_lower_hex digest = true).
Proof.
  intros run1 run2.
  assert (H : run1 = Raise UnicodeEncodeError) by (vm_compute; reflexivity).
  split; [reflexivity|]. split; [exact H|].
  intros (d & Hd & _). congruence.
Qed.

(** C5 (amended). The hashing operation is a function of the API key, the
    request code and the API secret alone: two runs that agree on the three
    give the same outcome, whatever else the two worlds hold.  When the
    concatenation of the three is encodable (no lone surrogate), both runs
    return the same digest, the SHA-256 of its encoding, of exactly 64
    characters, each among 0-9 and a-f; every digest returned has that shape.
    When it is not encodable, both runs raise UnicodeEncodeError. *)
Theorem simulate_sha256_hashing_deterministic (w1 w2 : World) (request_code : pystr) :
  api_key (self w1) = api_key (self w2) ->
  api_secret (self w1) = api_secret (self w2) ->
  fst (simulate_sha256_hashing request_code w1)
    = fst (simulate_sha256_hashing request_code w2) /\
  computeExchangeSecret (api_key (self w1)) request_code (api_secret (self w1))
    = computeExchangeSecret (api_key (self w2)) request_code (api_secret (self w2)) /\
  (forall digest,
     computeExchangeSecret (api_key (self w1)) request_code (api_secret (self w1))
       = Ok digest ->
     List.length digest = 64%nat /\ forallb is_lower_hex digest = true) /\
  (Utf8.encodable ((api_key (self w1) ++ request_code) ++ api_secret (self w1)) = true ->
   exists bytes,
     Utf8.encode ((api_key (self w1) ++ request_code) ++ api_secret (self w1))
       = Ok bytes /\
     computeExchangeSecret (api_key (self w1)) request_code (api_secret (self w1))
       = Ok (Sha256.hexdigest bytes) /\
     computeExchangeSecret (api_key (self w2)) request_code (api_secret (self w2))
       = Ok (Sha256.hexdigest bytes) /\
     List.length (Sha256.hexdigest bytes) = 64%nat /\
     forallb is_lower_hex (Sha256.hexdigest bytes) = true) /\
  (Utf8.encodable ((api_key (self w1) ++ request_code) ++ api_secret (self w1)) = false ->
   computeExchangeSecret (api_key (self w1)) request_code (api_secret (self w1))
     = Raise UnicodeEncodeError /\
   computeExchangeSecret (api_key (self w2)) request_code (api_secret (self w2))
     = Raise UnicodeEncodeError).
Proof.
  intros Hk Hs. rewrite !simulate_sha256_hashing_eq. cbn [fst].
  rewrite <- Hk, <- Hs. split; [reflexivity|]. split; [reflexivity|].
  rewrite computeExchangeSecret_eq.
  split; [|split].
  - intros digest. destruct (Utf8.encode _) as [bs|e]; [|discriminate].
    intros H. inversion H; subst.
    split; [apply hexdigest_length | apply hexdigest_lower].
  - intros He. destruct (encode_encodable _ He) as [bs Hbs]. rewrite Hbs.
    exists bs. do 3 (split; [reflexivity|]).
    split; [apply hexdigest_length | apply hexdigest_lower].
  - intros He. rewrite (encode_not_encodable _ He). split; reflexivity.
Qed.

Lemma simulate_sha256_hashing_deterministic_witness :
  let w2 := {| self := {| api_key := api_key init;
                          api_secret := api_secret init;
                          redirect_uri := [];
                          token_endpoint := [];
                          auth_portal := str_of "elsewhere" |};
               stdout := [str_of "noise"] |} in
  fst (simulate_sha256_hashing (str_of "test_request_code_123") auth_simulator)
    = fst (simulate_sha256_hashing (str_of "test_request_code_123") w2).
Proof.
  intros w2.
  exact (proj1 (simulate_sha256_hashing_deterministic auth_simulator w2
                  (str_of "test_request_code_123") eq_refl eq_refl)).
Defined.

(** C1, as stated, fails: a request code holding a lone surrogate makes
    [str.encode] raise, so no digest is returned. *)
Lemma computeExchangeSecret_surrogate_raises :
  computeExchangeSecret (str_of "test_api_key") [0xD800] (str_of "test_api_secret")
    = Raise UnicodeEncodeError /\
  ~ (exists digest,
       computeExchangeSecret (str_of "test_api_key") [0xD800] (str_of "test_api_secret")
         = Ok digest).
Proof.
  assert (H : computeExchangeSecret (str_of "test_api_key") [0xD800]
                (str_of "test_api_secret") = Raise UnicodeEncodeError)
    by (vm_compute; reflexivity).
  split; [exact H|]. intros [d Hd]. congruence.
Qed.

(** C1 (amended). Whenever the concatenation of API key, request code and
    API secret, in that order, is encodable (no lone surrogate), the hashing
    operation returns the lowercase hexadecimal SHA-256 digest, 64 characters
    long, of its UTF-8 encoding.  In particular, on "test_api_key",
    "test_request_code_123" and "test_api_secret" it returns the digest of the
    literal "test_api_keytest_request_code_123test_api_secret".  Whenever the
    concatenation is not encodable, the operation raises UnicodeEncodeError
    and returns no digest. *)
Theorem computeExchangeSecret_is_sha256 :
  (forall apiKey requestCode apiSecret : pystr,
     Utf8.encodable (apiKey ++ requestCode ++ apiSecret) = true ->
     exists bytes,
       Utf8.encode (apiKey ++ requestCode ++ apiSecret) = Ok bytes /\
       computeExchangeSecret apiKey requestCode apiSecret = Ok (Sha256.hexdigest bytes) /\
       List.length (Sha256.hexdigest bytes) = 64%nat /\
       forallb is_lower_hex (Sha256.hexdigest bytes) = true) /\
  (Utf8.encode (str_of "test_api_keytest_request_code_123test_api_secret")
     = Ok (str_of "test_api_keytest_request_code_123test_api_secret") /\
   computeExchangeSecret (str_of "test_api_key") (str_of "test_request_code_123")
       (str_of "test_api_secret")
     = Ok (Sha256.hexdigest (str_of "test_api_keytest_request_code_123test_api_secret")) /\
   Sha256.hexdigest (str_of "test_api_keytest_request_code_123test_api_secret")
     = str_of "534a9ee956c42477378b59deee7ce1cadeaeb683db40262a1b5461201e985d31") /\
  (forall apiKey requestCode apiSecret : pystr,
     Utf8.encodable (apiKey ++ requestCode ++ apiSecret) = false ->
     computeExchangeSecret apiKey requestCode apiSecret = Raise UnicodeEncodeError).
Proof.
  split; [|split].
  - intros apiKey requestCode apiSecret He.
    destruct (encode_encodable _ He) as [bs Hbs]. exists bs.
    split; [exact Hbs|]. split.
    + unfold computeExchangeSecret. rewrite simulate_sha256_hashing_eq.
      cbn [fst with_credentials self api_key api_secret].
      rewrite <- app_assoc, Hbs. reflexivity.
    + split; [apply hexdigest_length | apply hexdigest_lower].
  - repeat split; vm_compute; reflexivity.
  - intros apiKey requestCode apiSecret He.
    rewrite <- encodable_assoc in He.
    now rewrite computeExchangeSecret_eq, (encode_not_encodable _ He).
Qed.

Lemma computeExchangeSecret_is_sha256_witness :
  Utf8.encodable (str_of "key" ++ [0xE9; 0x1F527] ++ str_of "secret") = true /\
  exists bytes,
    Utf8.encode (str_of "key" ++ [0xE9; 0x1F527] ++ str_of "secret") = Ok bytes /\
    computeExchangeSecret (str_of "key") [0xE9; 0x1F527] (str_of "secret")
      = Ok (Sha256.hexdigest bytes).
Proof.
  split; [reflexivity|].
  destruct (proj1 computeExchangeSecret_is_sha256
              (str_of "key") [0xE9; 0x1F527] (str_of "secret") eq_refl)
    as (bs & Hbs & Hd & _).
  exists bs. split; assumption.
Defined.

(** C10, as stated, fails: for a request code with a lone surrogate the
    hashing operation raises instead of returning a payload. *)
Lemma simulate_sha256_hashing_surrogate_raises :
  simulate_sha256_hashing (str_of "code" ++ [0xDFFF]) auth_simulator
    = (Raise UnicodeEncodeError, auth_simulator).
Proof. vm_compute. reflexivity. Qed.

(** C10 (amended). For every request code such that API key, request code
    and API secret are encodable, the hashing operation returns a payload of
    three entries: [api_key], the configured key unchanged; [api_secret], the
    64-character SHA-256 hexadecimal digest of key, code and secret
    concatenated; [request_code], the given code unchanged.  For every
    request code such that they are not encodable, it raises
    UnicodeEncodeError instead of returning a payload. *)
Theorem simulate_sha256_hashing_payload (w : World) (request_code : pystr) :
  (Utf8.encodable (api_key (self w) ++ request_code ++ api_secret (self w)) = true ->
   exists bytes,
     Utf8.encode (api_key (self w) ++ request_code ++ api_secret (self w)) = Ok bytes /\
     simulate_sha256_hashing request_code w =
       (Ok [("api_key"%string, VStr (api_key (self w)));
            ("api_secret"%string, VStr (Sha256.hexdigest bytes));
            ("request_code"%string, VStr request_code)], w) /\
     List.length (Sha256.hexdigest bytes) = 64%nat) /\
  (Utf8.encodable (api_key (self w) ++ request_code ++ api_secret (self w)) = false ->
   simulate_sha256_hashing request_code w = (Raise UnicodeEncodeError, w)).
Proof.
  split; intros He.
  - destruct (encode_encodable _ He) as [bs Hbs]. exists bs.
    split; [exact Hbs|]. split; [|apply hexdigest_length].
    rewrite simulate_sha256_hashing_eq, <- app_assoc, Hbs. reflexivity.
  - rewrite <- encodable_assoc in He.
    now rewrite simulate_sha256_hashing_eq, (encode_not_encodable _ He).
Qed.

Lemma simulate_sha256_hashing_payload_witness :
  simulate_sha256_hashing (str_of "test_request_code_123") auth_simulator =
    (Ok [("api_key"%string, VStr (str_of "test_api_key"));
         ("api_secret"%string,
          VStr (str_of "534a9ee956c42477378b59deee7ce1cadeaeb683db40262a1b5461201e985d31"));
         ("request_code"%string, VStr (str_of "test_request_code_123"))],
     auth_simulator).
Proof.
  destruct (proj1 (simulate_sha256_hashing_payload auth_simulator
                     (str_of "test_request_code_123")) eq_refl)
    as (bs & Hbs & Hp & _).
  rewrite Hp.
  assert (Hbs' : Ok bs = Ok (str_of "test_api_keytest_request_code_123test_api_secret"))
    by (rewrite <- Hbs; reflexivity).
  inversion Hbs'; subst bs. vm_compute. reflexivity.
Defined.

(** ** The token exchange *)

Lemma validate_token_exchange_cases rc w :
  fst (validate_token_exchange rc w) =
  match rc with
  | [] => Ok ExchangeError
  | _ :: _ =>
      if Utf8.encodable (api_key (self w) ++ rc ++ api_secret (self w))
      then Ok (token_response rc)
      else Raise UnicodeEncodeError
  end.
Proof.
  rewrite validate_token_exchange_eq. cbn [fst].
  destruct rc as [|c rc]; [reflexivity|].
  rewrite <- encodable_assoc.
  destruct (Utf8.encodable _) eqn:He.
  - destruct (encode_encodable _ He) as [bs ->]. reflexivity.
  - now rewrite (encode_not_encodable _ He).
Qed.

Lemma validate_token_exchange_frame rc w : snd (validate_token_exchange rc w) = w.
Proof. now rewrite validate_token_exchange_eq. Qed.

Lemma validate_token_exchange_raises rc w :
  rc <> [] ->
  Utf8.encodable (api_key (self w) ++ rc ++ api_secret (self w)) = false ->
  validate_token_exchange rc w = (Raise UnicodeEncodeError, w).
Proof.
  intros Hne He.
  rewrite (surjective_pairing (validate_token_exchange rc w)).
  rewrite validate_token_exchange_cases, validate_token_exchange_frame.
  destruct rc; [contradiction|]. now rewrite He.
Qed.

Lemma simulate_sha256_hashing_cases rc w :
  (exists payload, fst (simulate_sha256_hashing rc w) = Ok payload /\
                   getitem payload "error" = Raise (KeyError "error") /\
                   Utf8.encodable (api_key (self w) ++ rc ++ api_secret (self w)) = true) \/
  (fst (simulate_sha256_hashing rc w) = Raise UnicodeEncodeError /\
   Utf8.encodable (api_key (self w) ++ rc ++ api_secret (self w)) = false).
Proof.
  rewrite simulate_sha256_hashing_eq, <- encodable_assoc. cbn [fst].
  destruct (Utf8.encodable _) eqn:He.
  - left. destruct (encode_encodable _ He) as [bs ->]. eauto.
  - right. now rewrite (encode_not_encodable _ He).
Qed.

(** C3, as stated, fails: a non-empty request code holding a lone surrogate
    does not yield a token; the hashing step of the exchange raises. *)
Lemma validate_token_exchange_surrogate_raises :
  [0xD800] <> [] /\
  validate_token_exchange [0xD800] auth_simulator
    = (Raise UnicodeEncodeError, auth_simulator).
Proof. split; [discriminate | vm_compute; reflexivity]. Qed.

(** C3 (amended). For every non-empty request code such that API key,
    request code and API secret are encodable, the exchange returns the
    success dictionary: [token] is "mock_token_" followed by the first 8 code
    points of the request code (the whole code when it has at most 8),
    [expires_in] is 86400, and it carries [success] and [status].  For every
    non-empty request code such that they are not encodable (a lone
    surrogate), the hashing step inside the exchange raises
    UnicodeEncodeError. *)
Theorem validate_token_exchange_success (w : World) (request_code : pystr) :
  request_code <> [] ->
  (Utf8.encodable (api_key (self w) ++ request_code ++ api_secret (self w)) = true ->
   validate_token_exchange request_code w =
     (Ok [("success"%string, VBool true);
          ("token"%string, VStr (str_of "mock_token_" ++ firstn 8 request_code));
          ("expires_in"%string, VInt 86400);
          ("status"%string, VStr (str_of "Ok"))], w) /\
   List.length (firstn 8 request_code) = Nat.min 8 (List.length request_code) /\
   ((List.length request_code <= 8)%nat -> firstn 8 request_code = request_code)) /\
  (Utf8.encodable (api_key (self w) ++ request_code ++ api_secret (self w)) = false ->
   validate_token_exchange request_code w = (Raise UnicodeEncodeError, w)).
Proof.
  intros Hne. split; intros He.
  - split; [|split].
    + rewrite (surjective_pairing (validate_token_exchange request_code w)).
      rewrite validate_token_exchange_cases, validate_token_exchange_frame.
      destruct request_code; [contradiction|]. now rewrite He.
    + apply length_firstn.
    + apply firstn_all2.
  - now apply validate_token_exchange_raises.
Qed.

Lemma validate_token_exchange_success_witness :
  str_of "abc123" <> [] /\
  validate_token_exchange (str_of "abc123") auth_simulator =
    (Ok [("success"%string, VBool true);
         ("token"%string, VStr (str_of "mock_token_abc123"));
         ("expires_in"%string, VInt 86400);
         ("status"%string, VStr (str_of "Ok"))], auth_simulator).
Proof.
  split; [discriminate|].
  refine (proj1 (proj1 (validate_token_exchange_success auth_simulator
                          (str_of "abc123") _) _));
    [discriminate | reflexivity].
Defined.

(** C4, as stated, fails: with a non-empty request code the exchange can
    still fail, and with a third kind of error: a request code that ends in a
    lone surrogate makes it raise UnicodeEncodeError. *)
Lemma validate_token_exchange_other_failure :
  let request_code := str_of "abc123" ++ [0xDC00] in
  request_code <> [] /\
  fst (validate_token_exchange request_code auth_simulator) = Raise UnicodeEncodeError /\
  fst (validate_token_exchange request_code auth_simulator) <> Ok ExchangeError /\
  fst (validate_token_exchange request_code auth_simulator) <> Ok ConfigError.
Proof.
  intros request_code.
  assert (H : fst (validate_token_exchange request_code auth_simulator)
              = Raise UnicodeEncodeError)
    by (vm_compute; reflexivity).
  split; [discriminate|]. split; [exact H|].
  rewrite H. split; discriminate.
Qed.

(** C4 (amended). The exchange returns the ExchangeError dictionary if and
    only if the request code is empty.  Its only other failure is the
    UnicodeEncodeError raised when the request code is non-empty and API key,
    request code and API secret are not encodable.  Over the three operations
    the failures are these three and no other: the login URL never raises and
    its only error dictionary is ConfigError; the hashing operation returns no
    error dictionary and raises nothing but UnicodeEncodeError; the exchange's
    only error dictionary is ExchangeError and it raises nothing but
    UnicodeEncodeError. *)
Theorem failure_kinds (w : World) (request_code : pystr) :
  let unencodable :=
    Utf8.encodable (api_key (self w) ++ request_code ++ api_secret (self w)) = false in
  (fst (validate_token_exchange request_code w) = Ok ExchangeError
     <-> request_code = []) /\
  (fst (validate_token_exchange request_code w) = Raise UnicodeEncodeError
     <-> request_code <> [] /\ unencodable) /\
  (forall e, fst (validate_token_exchange request_code w) = Raise e ->
             e = UnicodeEncodeError) /\
  (forall d v, fst (validate_token_exchange request_code w) = Ok d ->
               getitem d "error" = Ok v -> d = ExchangeError) /\
  (forall e, fst (simulate_sha256_hashing request_code w) = Raise e ->
             e = UnicodeEncodeError /\ unencodable) /\
  (forall d, fst (simulate_sha256_hashing request_code w) = Ok d ->
             getitem d "error" = Raise (KeyError "error")) /\
  (forall e, fst (generate_login_url w) <> Raise e) /\
  (forall d v, fst (generate_login_url w) = Ok d ->
               getitem d "error" = Ok v -> d = ConfigError).
Proof.
  intros unencodable. subst unencodable.
  rewrite validate_token_exchange_cases, generate_login_url_eq. cbn [fst].
  unfold token_response, ExchangeError, ConfigError.
  repeat match goal with |- _ /\ _ => split end.
  - destruct request_code; [split; reflexivity|].
    destruct (Utf8.encodable _); split; discriminate.
  - destruct request_code; [split; [discriminate | intros [H _]; contradiction]|].
    destruct (Utf8.encodable _); split;
      try discriminate; try (intros [_ H]; discriminate); try reflexivity.
    intros _. split; [discriminate | reflexivity].
  - intros e. destruct request_code; [discriminate|].
    destruct (Utf8.encodable _); [discriminate|]. now inversion 1.
  - intros d v. destruct request_code; [now inversion 1|].
    destruct (Utf8.encodable _); [|discriminate].
    inversion 1; subst. cbn. discriminate.
  - intros e He.
    destruct (simulate_sha256_hashing_cases request_code w)
      as [(p & Hp & _) | [Hr Hu]]; [congruence|].
    split; [congruence | exact Hu].
  - intros d Hd.
    destruct (simulate_sha256_hashing_cases request_code w)
      as [(p & Hp & Hk & _) | [Hr _]]; congruence.
  - discriminate.
  - intros d v. destruct (negb _ || negb _); inversion 1; subst; [reflexivity|].
    cbn. discriminate.
Qed.

(** ** Returning and raising *)

(** C6, as stated, fails: on a request code holding a lone surrogate the
    hashing operation and the exchange return no value; both raise. *)
Lemma lone_surrogate_is_raised :
  fst (simulate_sha256_hashing [0xDBFF] auth_simulator) = Raise UnicodeEncodeError /\
  fst (validate_token_exchange [0xDBFF] auth_simulator) = Raise UnicodeEncodeError /\
  ~ (exists d, fst (simulate_sha256_hashing [0xDBFF] auth_simulator) = Ok d) /\
  ~ (exists d, fst (validate_token_exchange [0xDBFF] auth_simulator) = Ok d).
Proof.
  assert (H1 : fst (simulate_sha256_hashing [0xDBFF] auth_simulator)
               = Raise UnicodeEncodeError) by (vm_compute; reflexivity).
  assert (H2 : fst (validate_token_exchange [0xDBFF] auth_simulator)
               = Raise UnicodeEncodeError) by (vm_compute; reflexivity).
  repeat split; try assumption; intros [d Hd]; congruence.
Qed.

(** C6 (amended). The login URL operation returns a dictionary for every
    configuration, the ConfigError dictionary included, and the exchange
    returns the ExchangeError dictionary for the empty request code: these two
    errors are values, not exceptions.  The hashing operation and the exchange
    return a dictionary for every request code such that API key, request
    code and API secret are encodable; otherwise the hashing operation raises
    UnicodeEncodeError, and so does the exchange unless the request code is
    empty. *)
Theorem operations_return (w : World) (request_code : pystr) :
  (exists d, generate_login_url w = (Ok d, w)) /\
  (api_key (self w) = [] \/ redirect_uri (self w) = [] ->
   generate_login_url w = (Ok ConfigError, w)) /\
  validate_token_exchange [] w = (Ok ExchangeError, w) /\
  (Utf8.encodable (api_key (self w) ++ request_code ++ api_secret (self w)) = true ->
   (exists d, simulate_sha256_hashing request_code w = (Ok d, w)) /\
   (exists d, validate_token_exchange request_code w = (Ok d, w))) /\
  (Utf8.encodable (api_key (self w) ++ request_code ++ api_secret (self w)) = false ->
   simulate_sha256_hashing request_code w = (Raise UnicodeEncodeError, w) /\
   (request_code <> [] ->
    validate_token_exchange request_code w = (Raise UnicodeEncodeError, w))).
Proof.
  split; [rewrite generate_login_url_eq; eauto|].
  split.
  { intros H. apply missing_configuration in H.
    now rewrite generate_login_url_eq, H. }
  split; [reflexivity|].
  rewrite validate_token_exchange_eq, simulate_sha256_hashing_eq.
  split; intros He.
  - rewrite <- encodable_assoc in He.
    destruct (encode_encodable _ He) as [bs ->].
    split; [eauto|]. destruct request_code; eauto.
  - rewrite <- encodable_assoc in He.
    rewrite (encode_not_encodable _ He).
    split; [reflexivity|]. destruct request_code; [contradiction | reflexivity].
Qed.

Lemma operations_return_witness :
  Utf8.encodable (api_key init ++ str_of "abc123" ++ api_secret init) = true /\
  (exists d, simulate_sha256_hashing (str_of "abc123") auth_simulator
             = (Ok d, auth_simulator)) /\
  (exists d, validate_token_exchange (str_of "abc123") auth_simulator
             = (Ok d, auth_simulator)).
Proof.
  split; [reflexivity|].
  destruct (operations_return auth_simulator (str_of "abc123")) as (_ & _ & _ & H & _).
  exact (H eq_refl).
Defined.

(** ** The exchange and the credentials *)

(** C8, as stated, fails: two configurations that differ only in the API key
    give different outcomes for the same request code when one key holds a
    lone surrogate; the discarded hash computation raises for it. *)
Lemma validate_token_exchange_depends_on_api_key :
  let w1 := auth_simulator in
  let w2 := {| self := {| api_key := [0xD800];
                          api_secret := api_secret init;
                          redirect_uri := redirect_uri init;
                          token_endpoint := token_endpoint init;
                          auth_portal := auth_portal init |};
               stdout := [] |} in
  fst (validate_token_exchange (str_of "abc123") w1)
    <> fst (validate_token_exchange (str_of "abc123") w2).
Proof.
  intros w1 w2.
  assert (H2 : fst (validate_token_exchange (str_of "abc123") w2)
               = Raise UnicodeEncodeError) by (vm_compute; reflexivity).
  rewrite H2, validate_token_exchange_cases. cbn. discriminate.
Qed.

(** C8 (amended). For any two configurations (in particular two that differ
    only in API key and API secret) and any request code that is empty, or
    such that under both configurations API key, request code and API secret
    are encodable, the exchange returns the same dictionary: token, expiry and
    status do not depend on the credentials.  For every non-empty request
    code, an API key or API secret that is not encodable (a lone surrogate)
    makes the discarded hash computation, and so the exchange, raise
    UnicodeEncodeError; the outcome then differs from that of any
    configuration under which the hash input is encodable. *)
Theorem validate_token_exchange_ignores_credentials
    (w1 w2 : World) (request_code : pystr) :
  (request_code = [] \/
   (Utf8.encodable (api_key (self w1) ++ request_code ++ api_secret (self w1)) = true /\
    Utf8.encodable (api_key (self w2) ++ request_code ++ api_secret (self w2)) = true) ->
   fst (validate_token_exchange request_code w1)
     = fst (validate_token_exchange request_code w2) /\
   exists d, fst (validate_token_exchange request_code w1) = Ok d) /\
  (request_code <> [] ->
   Utf8.encodable (api_key (self w1)) = false \/
   Utf8.encodable (api_secret (self w1)) = false ->
   validate_token_exchange request_code w1 = (Raise UnicodeEncodeError, w1) /\
   (Utf8.encodable (api_key (self w2) ++ request_code ++ api_secret (self w2)) = true ->
    fst (validate_token_exchange request_code w1)
      <> fst (validate_token_exchange request_code w2))).
Proof.
  split.
  - intros H. rewrite !validate_token_exchange_cases.
    destruct request_code as [|c rc]; [eauto|].
    destruct H as [H | [H1 H2]]; [discriminate|].
    rewrite H1, H2. eauto.
  - intros Hne Hc.
    assert (He : Utf8.encodable
                   (api_key (self w1) ++ request_code ++ api_secret (self w1)) = false)
      by (rewrite <- encodable_assoc; now apply hash_input_unencodable).
    split; [now apply validate_token_exchange_raises|].
    intros H2. rewrite !validate_token_exchange_cases.
    destruct request_code as [|c rc]; [contradiction|].
    rewrite He, H2. discriminate.
Qed.

Lemma validate_token_exchange_ignores_credentials_witness :
  fst (validate_token_exchange (str_of "abc123") auth_simulator)
    = fst (validate_token_exchange (str_of "abc123")
             (with_credentials (str_of "another_key") [0xE9; 0x1F527])).
Proof.
  refine (proj1 (proj1 (validate_token_exchange_ignores_credentials auth_simulator
                          (with_credentials (str_of "another_key") [0xE9; 0x1F527])
                          (str_of "abc123")) _)).
  right. split; reflexivity.
Defined.

(** * Further properties of the methods *)

Lemma pystr_eqb_refl (s : pystr) : pystr_eqb s s = true.
Proof. unfold pystr_eqb. destruct (list_eq_dec Z.eq_dec s s); congruence. Qed.

Lemma validate_token_exchange_nonempty rc w :
  rc <> [] ->
  validate_token_exchange rc w =
  (match Utf8.encode ((api_key (self w) ++ rc) ++ api_secret (self w)) with
   | Ok _ => Ok (token_response rc)
   | Raise e => Raise e
   end, w).
Proof.
  intros H. rewrite validate_token_exchange_eq.
  destruct rc; [contradiction | reflexivity].
Qed.

(** The whole behaviour of the smoke test, by cases on the configuration. *)
Lemma test_authentication_flow_cases (w : World) :
  test_authentication_flow w =
  if negb (truthy (VStr (api_key (self w))))
     || negb (truthy (VStr (redirect_uri (self w))))
  then (Raise (KeyError "success"), printed w [line_testing])
  else if Utf8.encodable ((api_key (self w) ++ mock_request_code) ++ api_secret (self w))
  then (Ok true,
        printed w [line_testing; line_login_passed; line_token_passed;
                   line_hash_passed; line_all_passed])
  else (Raise UnicodeEncodeError, printed w [line_testing; line_login_passed]).
Proof.
  unfold test_authentication_flow.
  unfold bind at 1. unfold print at 1.
  unfold bind at 1. rewrite generate_login_url_eq. cbn [self].
  destruct (negb _ || negb _).
  - reflexivity.
  - flow_step. unfold bind at 1.
    rewrite validate_token_exchange_nonempty by discriminate. cbn [self].
    fold mock_request_code.
    destruct (Utf8.encodable _) eqn:He.
    + destruct (encode_encodable _ He) as [bs Hbs]. rewrite Hbs.
      unfold token_response. flow_step. unfold bind at 1.
      rewrite simulate_sha256_hashing_eq. cbn [self].
      fold mock_request_code. rewrite Hbs. flow_step.
      rewrite pystr_eqb_refl. flow_step.
      rewrite hexdigest_length. flow_step.
      unfold printed. rewrite <- !app_assoc. reflexivity.
    + rewrite (encode_not_encodable _ He). unfold printed.
      cbn [stdout]. rewrite <- app_assoc. reflexivity.
Qed.

Lemma configuration_present w :
  api_key (self w) <> [] -> redirect_uri (self w) <> [] ->
  negb (truthy (VStr (api_key (self w)))) || negb (truthy (VStr (redirect_uri (self w))))
  = false.
Proof.
  intros Hk Hu. destruct (negb _ || negb _) eqn:E; [|reflexivity].
  apply missing_configuration in E. destruct E; contradiction.
Qed.

Lemma test_hash_input_encodable w :
  Utf8.encodable ((api_key (self w) ++ mock_request_code) ++ api_secret (self w))
  = Utf8.encodable (api_key (self w)) && Utf8.encodable (api_secret (self w)).
Proof.
  rewrite !encodable_app.
  change (Utf8.encodable mock_request_code) with true.
  now rewrite andb_true_r.
Qed.

(** ** The smoke test on any configuration *)

(** X1. On every configuration with a non-empty API key and redirect URI
    whose API key and API secret are encodable, [test_authentication_flow]
    returns [True], appends its five lines to the output in order, and
    leaves the simulator as it was. *)
Theorem test_authentication_flow_passes_when_configured (w : World) :
  api_key (self w) <> [] ->
  redirect_uri (self w) <> [] ->
  Utf8.encodable (api_key (self w)) = true ->
  Utf8.encodable (api_secret (self w)) = true ->
  test_authentication_flow w =
  (Ok true,
   {| self := self w;
      stdout := stdout w ++ [line_testing; line_login_passed; line_token_passed;
                             line_hash_passed; line_all_passed] |}).
Proof.
  intros Hk Hu Ek Es.
  rewrite test_authentication_flow_cases, (configuration_present w Hk Hu),
    test_hash_input_encodable, Ek, Es.
  reflexivity.
Qed.

Lemma test_authentication_flow_passes_when_configured_witness :
  let w := {| self := {| api_key := [0xE9; 0x1F527];
                         api_secret := str_of "s3cret";
                         redirect_uri := str_of "https://example.org/cb";
                         token_endpoint := [];
                         auth_portal := [] |};
              stdout := [str_of "earlier output"] |} in
  fst (test_authentication_flow w) = Ok true /\
  List.length (stdout (snd (test_authentication_flow w))) = 6%nat.
Proof.
  intros w.
  assert (H : test_authentication_flow w = _)
    by (apply (test_authentication_flow_passes_when_configured w);
        [discriminate | discriminate | reflexivity | reflexivity]).
  rewrite H. split; reflexivity.
Defined.

(** X2. When the API key or the redirect URI is empty, the smoke test does
    not fail through its assertion "Login URL generation failed": the error
    dictionary has no [success] entry, so the lookup raises KeyError for
    "success", after the first line only was printed. *)
Theorem test_authentication_flow_missing_configuration (w : World) :
  api_key (self w) = [] \/ redirect_uri (self w) = [] ->
  test_authentication_flow w =
  (Raise (KeyError "success"),
   {| self := self w; stdout := stdout w ++ [line_testing] |}).
Proof.
  intros H. apply missing_configuration in H.
  now rewrite test_authentication_flow_cases, H.
Qed.

Lemma test_authentication_flow_missing_configuration_witness :
  let w := {| self := {| api_key := api_key init;
                         api_secret := api_secret init;
                         redirect_uri := [];
                         token_endpoint := token_endpoint init;
                         auth_portal := auth_portal init |};
              stdout := [] |} in
  test_authentication_flow w =
  (Raise (KeyError "success"), {| self := self w; stdout := [line_testing] |}).
Proof.
  intros w.
  apply (test_authentication_flow_missing_configuration w).
  right. reflexivity.
Defined.

(** X3. With a non-empty API key and redirect URI but a lone surrogate in
    the API key or the API secret, the smoke test stops in the token
    exchange: it raises UnicodeEncodeError after printing its first two lines,
    and "Token exchange: PASSED" is never printed. *)
Theorem test_authentication_flow_unencodable (w : World) :
  api_key (self w) <> [] ->
  redirect_uri (self w) <> [] ->
  Utf8.encodable (api_key (self w)) && Utf8.encodable (api_secret (self w)) = false ->
  test_authentication_flow w =
  (Raise UnicodeEncodeError,
   {| self := self w; stdout := stdout w ++ [line_testing; line_login_passed] |}).
Proof.
  intros Hk Hu He.
  rewrite test_authentication_flow_cases, (configuration_present w Hk Hu),
    test_hash_input_encodable, He.
  reflexivity.
Qed.

Lemma test_authentication_flow_unencodable_witness :
  let w := with_credentials (str_of "test_api_key") (str_of "secret" ++ [0xDC80]) in
  test_authentication_flow w =
  (Raise UnicodeEncodeError,
   {| self := self w; stdout := [line_testing; line_login_passed] |}).
Proof.
  intros w.
  apply (test_authentication_flow_unencodable w);
    [discriminate | discriminate | reflexivity].
Defined.

(** X4. On no configuration does the smoke test raise AssertionError or
    TypeError, or return [False]: its four assertions can never fire.  It
    never changes the simulator, and it only appends to the output, starting
    with its first line. *)
Theorem test_authentication_flow_never_asserts (w : World) :
  (forall msg, fst (test_authentication_flow w) <> Raise (AssertionError msg)) /\
  fst (test_authentication_flow w) <> Raise TypeError /\
  fst (test_authentication_flow w) <> Ok false /\
  self (snd (test_authentication_flow w)) = self w /\
  exists lines,
    stdout (snd (test_authentication_flow w)) = stdout w ++ line_testing :: lines.
Proof.
  rewrite test_authentication_flow_cases.
  destruct (negb _ || negb _); [|destruct (Utf8.encodable _)];
    cbn [fst snd printed self stdout];
    (split; [intros msg; discriminate|]);
    (split; [discriminate|]); (split; [discriminate|]);
    (split; [reflexivity|]); eexists; reflexivity.
Qed.

(** ** The hash input has no field boundaries *)

(** X5. The digest depends on API key, request code and API secret only
    through their concatenation: two triples with the same concatenation,
    however the boundaries fall, get the same outcome, hence the same
    digest. *)
Theorem computeExchangeSecret_boundaries
    (key1 code1 secret1 key2 code2 secret2 : pystr) :
  key1 ++ code1 ++ secret1 = key2 ++ code2 ++ secret2 ->
  computeExchangeSecret key1 code1 secret1 = computeExchangeSecret key2 code2 secret2.
Proof.
  intros H. unfold computeExchangeSecret.
  rewrite !simulate_sha256_hashing_eq.
  cbn [fst with_credentials self api_key api_secret].
  rewrite <- !app_assoc, H.
  destruct (Utf8.encode _); reflexivity.
Qed.

Lemma computeExchangeSecret_boundaries_witness :
  (str_of "key", str_of "12", str_of "3secret")
    <> (str_of "key1", str_of "2", str_of "3secret") /\
  computeExchangeSecret (str_of "key") (str_of "12") (str_of "3secret")
    = computeExchangeSecret (str_of "key1") (str_of "2") (str_of "3secret").
Proof.
  split; [discriminate|].
  apply (computeExchangeSecret_boundaries
           (str_of "key") (str_of "12") (str_of "3secret")
           (str_of "key1") (str_of "2") (str_of "3secret")).
  reflexivity.
Defined.

(** ** The mock token *)

(** X6. The exchange looks at no more than the first 8 code points of the
    request code: two non-empty request codes that agree on them get the
    same response, token included, under the same configuration (both hash
    inputs being encodable). *)
Theorem validate_token_exchange_prefix (w : World) (code1 code2 : pystr) :
  code1 <> [] -> code2 <> [] ->
  firstn 8 code1 = firstn 8 code2 ->
  Utf8.encodable (api_key (self w) ++ code1 ++ api_secret (self w)) = true ->
  Utf8.encodable (api_key (self w) ++ code2 ++ api_secret (self w)) = true ->
  validate_token_exchange code1 w = validate_token_exchange code2 w.
Proof.
  intros H1 H2 Hp E1 E2.
  rewrite (surjective_pairing (validate_token_exchange code1 w)),
    (surjective_pairing (validate_token_exchange code2 w)).
  rewrite !validate_token_exchange_cases, !validate_token_exchange_frame.
  destruct code1; [contradiction|]. destruct code2; [contradiction|].
  rewrite E1, E2. unfold token_response. now rewrite Hp.
Qed.

Lemma validate_token_exchange_prefix_witness :
  str_of "abcdefgh-first" <> str_of "abcdefgh-second" /\
  validate_token_exchange (str_of "abcdefgh-first") auth_simulator
    = validate_token_exchange (str_of "abcdefgh-second") auth_simulator.
Proof.
  split; [discriminate|].
  apply (validate_token_exchange_prefix auth_simulator);
    [discriminate | discriminate | reflexivity | reflexivity | reflexivity].
Defined.

(** X7. Whenever the exchange returns a dictionary with a [token] entry,
    the token is "mock_token_" followed by the first 8 code points of the
    request code, so it has between 12 and 19 code points. *)
Theorem validate_token_exchange_token_shape
    (w : World) (request_code : pystr) (d : pydict) (token : pystr) :
  fst (validate_token_exchange request_code w) = Ok d ->
  getitem d "token" = Ok (VStr token) ->
  token = str_of "mock_token_" ++ firstn 8 request_code /\
  (12 <= List.length token <= 19)%nat.
Proof.
  rewrite validate_token_exchange_cases.
  destruct request_code as [|c rc]; [inversion 1; subst; discriminate|].
  destruct (Utf8.encodable _); [|discriminate].
  inversion 1; subst d. cbn [token_response getitem String.eqb Ascii.eqb Bool.eqb].
  intros Ht.
  assert (token = str_of "mock_token_" ++ firstn 8 (c :: rc)) as -> by congruence.
  split; [reflexivity|].
  rewrite length_app, length_firstn.
  change (List.length (str_of "mock_token_")) with 11%nat.
  cbn [List.length]. lia.
Qed.

Lemma validate_token_exchange_token_shape_witness :
  exists d,
    fst (validate_token_exchange (str_of "abc123") auth_simulator) = Ok d /\
    getitem d "token" = Ok (VStr (str_of "mock_token_abc123")) /\
    (12 <= List.length (str_of "mock_token_abc123") <= 19)%nat.
Proof.
  exists (token_response (str_of "abc123")).
  assert (Hr : fst (validate_token_exchange (str_of "abc123") auth_simulator)
               = Ok (token_response (str_of "abc123"))) by (vm_compute; reflexivity).
  assert (Ht : getitem (token_response (str_of "abc123")) "token"
               = Ok (VStr (str_of "mock_token_abc123"))) by reflexivity.
  split; [exact Hr|]. split; [exact Ht|].
  exact (proj2 (validate_token_exchange_token_shape auth_simulator (str_of "abc123")
                  _ _ Hr Ht)).
Defined.

(** ** The login URL *)

(** X8. The login URL does not tell where the key ends: since nothing is
    escaped, a key that contains "&redirect_uri=" gives the very URL of a
    shorter key with a longer redirect URI. *)
Theorem generate_login_url_ambiguous (w1 w2 : World) (key middle uri : pystr) :
  key <> [] -> uri <> [] ->
  auth_portal (self w1) = auth_portal (self w2) ->
  api_key (self w1) = key ++ str_of "&redirect_uri=" ++ middle ->
  redirect_uri (self w1) = uri ->
  api_key (self w2) = key ->
  redirect_uri (self w2) = middle ++ str_of "&redirect_uri=" ++ uri ->
  fst (generate_login_url w1) = fst (generate_login_url w2) /\
  fst (generate_login_url w1) =
    Ok [("success"%string, VBool true);
        ("loginUrl"%string,
         VStr (login_url (auth_portal (self w1)) (api_key (self w1)) uri))].
Proof.
  intros Hk Hu Hp K1 U1 K2 U2.
  rewrite !generate_login_url_eq. cbn [fst].
  rewrite !configuration_present.
  - rewrite Hp, K1, U1, K2, U2. unfold login_url.
    split; [|reflexivity]. now rewrite <- !app_assoc.
  - now rewrite K2.
  - rewrite U2. destruct middle; discriminate.
  - rewrite K1. destruct key; [contradiction | discriminate].
  - now rewrite U1.
Qed.

Lemma generate_login_url_ambiguous_witness :
  let w1 := {| self := {| api_key := str_of "k&redirect_uri=https://evil.example/";
                          api_secret := api_secret init;
                          redirect_uri := str_of "x";
                          token_endpoint := token_endpoint init;
                          auth_portal := auth_portal init |};
               stdout := [] |} in
  let w2 := {| self := {| api_key := str_of "k";
                          api_secret := api_secret init;
                          redirect_uri := str_of "https://evil.example/&redirect_uri=x";
                          token_endpoint := token_endpoint init;
                          auth_portal := auth_portal init |};
               stdout := [] |} in
  fst (generate_login_url w1) = fst (generate_login_url w2).
Proof.
  intros w1 w2.
  refine (proj1 (generate_login_url_ambiguous w1 w2 (str_of "k")
                   (str_of "https://evil.example/") (str_of "x") _ _ _ _ _ _ _));
    try discriminate; reflexivity.
Defined.

(** X9. The login URL is independent of the API secret (and of the token
    endpoint and the output): two worlds that agree on API key, redirect URI
    and portal get the same result. *)
Theorem generate_login_url_ignores_secret (w1 w2 : World) :
  api_key (self w1) = api_key (self w2) ->
  redirect_uri (self w1) = redirect_uri (self w2) ->
  auth_portal (self w1) = auth_portal (self w2) ->
  fst (generate_login_url w1) = fst (generate_login_url w2).
Proof.
  intros Hk Hu Hp. rewrite !generate_login_url_eq. cbn [fst].
  now rewrite Hk, Hu, Hp.
Qed.

Lemma generate_login_url_ignores_secret_witness :
  fst (generate_login_url auth_simulator)
    = fst (generate_login_url
             {| self := {| api_key := api_key init;
                           api_secret := str_of "another secret";
                           redirect_uri := redirect_uri init;
                           token_endpoint := [];
                           auth_portal := auth_portal init |};
                stdout := [str_of "noise"] |}).
Proof.
  apply generate_login_url_ignores_secret; reflexivity.
Defined.

(** ** The shape of the returned dictionaries *)

(** X10. A dictionary returned by the login URL operation or by the
    exchange has exactly one of the entries [success] and [error]: either
    [success] is [True] and looking up [error] raises KeyError, or [error] is
    a non-empty message and looking up [success] raises KeyError.  [success]
    is never [False]. *)
Theorem result_has_success_or_error (w : World) (request_code : pystr) (d : pydict) :
  fst (generate_login_url w) = Ok d \/
  fst (validate_token_exchange request_code w) = Ok d ->
  (getitem d "success" = Ok (VBool true) /\
   getitem d "error" = Raise (KeyError "error")) \/
  (getitem d "success" = Raise (KeyError "success") /\
   exists message, getitem d "error" = Ok (VStr message) /\ message <> []).
Proof.
  rewrite generate_login_url_eq, validate_token_exchange_cases. cbn [fst].
  intros [H | H].
  - destruct (negb _ || negb _); inversion H; subst d.
    + right. split; [reflexivity|]. eexists. split; [reflexivity | discriminate].
    + left. split; reflexivity.
  - destruct request_code.
    + inversion H; subst d.
      right. split; [reflexivity|]. eexists. split; [reflexivity | discriminate].
    + destruct (Utf8.encodable _); inversion H; subst d.
      left. split; reflexivity.
Qed.

Lemma result_has_success_or_error_witness :
  getitem ExchangeError "success" = Raise (KeyError "success") /\
  exists message, getitem ExchangeError "error" = Ok (VStr message) /\ message <> [].
Proof.
  destruct (result_has_success_or_error auth_simulator [] ExchangeError
              (or_intror eq_refl)) as [[H _] | H].
  - discriminate H.
  - exact H.
Defined.

(** ** The hashed bytes, field by field *)

Lemma encode_app (a b : pystr) (bytes_a bytes_b : list Z) :
  Utf8.encode a = Ok bytes_a ->
  Utf8.encode b = Ok bytes_b ->
  Utf8.encode (a ++ b) = Ok (bytes_a ++ bytes_b).
Proof.
  revert bytes_a. induction a as [|c a IH]; intros bytes_a Ha Hb.
  - cbn in Ha. inversion Ha; subst. exact Hb.
  - cbn [app Utf8.encode] in *.
    destruct (Utf8.encode_char c) as [bc|]; [|discriminate].
    destruct (Utf8.encode a) as [ba|]; [|discriminate].
    inversion Ha; subst bytes_a.
    rewrite (IH ba eq_refl Hb). now rewrite app_assoc.
Qed.

(** X11. The digest in the payload is the SHA-256 of the UTF-8 bytes of the
    API key, then those of the request code, then those of the API secret,
    each encoded on its own and joined without a separator. *)
Theorem simulate_sha256_hashing_fieldwise
    (w : World) (request_code : pystr) (key_bytes code_bytes secret_bytes : list Z) :
  Utf8.encode (api_key (self w)) = Ok key_bytes ->
  Utf8.encode request_code = Ok code_bytes ->
  Utf8.encode (api_secret (self w)) = Ok secret_bytes ->
  simulate_sha256_hashing request_code w =
    (Ok [("api_key"%string, VStr (api_key (self w)));
         ("api_secret"%string,
          VStr (Sha256.hexdigest (key_bytes ++ code_bytes ++ secret_bytes)));
         ("request_code"%string, VStr request_code)], w).
Proof.
  intros Hk Hc Hs. rewrite simulate_sha256_hashing_eq.
  rewrite (encode_app _ _ _ _ (encode_app _ _ _ _ Hk Hc) Hs).
  now rewrite <- app_assoc.
Qed.

Lemma simulate_sha256_hashing_fieldwise_witness :
  simulate_sha256_hashing [0xE9; 0x1F527] auth_simulator =
    (Ok [("api_key"%string, VStr (api_key init));
         ("api_secret"%string,
          VStr (Sha256.hexdigest
                  (str_of "test_api_key" ++ [0xC3; 0xA9; 0xF0; 0x9F; 0x94; 0xA7]
                   ++ str_of "test_api_secret")));
         ("request_code"%string, VStr [0xE9; 0x1F527])], auth_simulator).
Proof.
  apply (simulate_sha256_hashing_fieldwise auth_simulator [0xE9; 0x1F527]);
    reflexivity.
Defined.
